(** * app_config.h: the build configuration of the AD9361 driver

    The repository's configuration surface is one C header,
    [fmcomms2_zc706.sdk/ad9361/src/src/app_config.h].  It is a program of
    the C preprocessor: read top to bottom, it transforms the table of
    macros that are defined when the header is included (the options a
    build requests, e.g. with [-D] on the compiler's command line) into the
    table the driver sources see afterwards (the effective configuration).

    This file embeds the preprocessor directives the header is written
    with, the header itself, and the tests ([#ifdef NAME], [#if NAME]) with
    which driver code reads the result, and proves what the header does to
    every requested option set.  An option is requested by defining its
    macro before the header is included; the header's own [#define] lines
    are part of the program. *)

From Stdlib Require Import ZArith String List Bool Lia.
From stdpp Require Import gmap strings.

Open Scope string_scope.

(** ** Macro tables *)

(** The replacement list of an object-like macro.  The header defines
    macros with an empty replacement list ([#define XILINX_PLATFORM]) and
    with an integer constant ([#define AD9361_DEVICE 1]). *)
Inductive replacement : Type :=
| Empty
| IntLit (z : Z).

(** The macros defined at a point of the translation unit, by name. *)
Abbreviation macro_env := (gmap string replacement).

(** [#ifdef NAME] / [defined(NAME)]. *)
Definition defined (env : macro_env) (name : string) : bool :=
  match env !! name with
  | Some _ => true
  | None => false
  end.

(** The value of [NAME] as the controlling expression of [#if NAME]: an
    identifier that is not a macro evaluates to 0, a macro defined as an
    integer constant to that constant.  (A macro with an empty replacement
    list leaves [#if] without an expression; it is read as 0 here.) *)
Definition if_value (env : macro_env) (name : string) : Z :=
  match env !! name with
  | Some (IntLit z) => z
  | _ => 0%Z
  end.

(** [#if NAME] takes its group when the value is not zero. *)
Definition if_true (env : macro_env) (name : string) : bool :=
  negb (if_value env name =? 0)%Z.

(** ** Preprocessor directives *)

(** The directives that change or test the macro table.  The header uses
    [#define] and [#ifndef ... #endif]; [#undef] and [#error] are the two
    directives with which a header would clear an option or reject an
    option set. *)
#[local] Unset Elimination Schemes.
Inductive directive : Type :=
| Define (name : string) (body : replacement)
| Undef (name : string)
| Ifndef (name : string) (group : list directive)
| Error (msg : string).
#[local] Set Elimination Schemes.

(** What preprocessing a group of directives ends in. *)
Inductive outcome : Type :=
| Ok (env : macro_env)
| Failed (msg : string).

(** A group is processed in order; the first [#error] ends it. *)
Definition run_group (step : directive -> macro_env -> outcome) :
  list directive -> macro_env -> outcome :=
  fix run (ds : list directive) (env : macro_env) : outcome :=
    match ds with
    | [] => Ok env
    | d :: ds' =>
        match step d env with
        | Ok env' => run ds' env'
        | Failed msg => Failed msg
        end
    end.

(** One directive.  [#define] of a name that is already defined replaces
    its replacement list (gcc, which builds this SDK project, warns about
    an incompatible redefinition and keeps the new one). *)
Fixpoint exec (d : directive) (env : macro_env) : outcome :=
  match d with
  | Define name body => Ok (<[name := body]> env)
  | Undef name => Ok (delete name env)
  | Ifndef name group =>
      if defined env name then Ok env else run_group exec group env
  | Error msg => Failed msg
  end.

Definition exec_group : list directive -> macro_env -> outcome :=
  run_group exec.

(** Names a directive can [#define] or [#undef]. *)
Fixpoint written (d : directive) : list string :=
  match d with
  | Define name _ => [name]
  | Undef name => [name]
  | Ifndef _ group => flat_map written group
  | Error _ => []
  end.

(** Whether a directive contains an [#error]. *)
Fixpoint has_error (d : directive) : bool :=
  match d with
  | Ifndef _ group => existsb has_error group
  | Error _ => true
  | _ => false
  end.

(** Whether a directive contains an [#undef]. *)
Fixpoint has_undef (d : directive) : bool :=
  match d with
  | Ifndef _ group => existsb has_undef group
  | Undef _ => true
  | _ => false
  end.

(** Names a directive tests with [#ifndef]. *)
Fixpoint tested (d : directive) : list string :=
  match d with
  | Ifndef name group => name :: flat_map tested group
  | _ => []
  end.

(** ** The header *)

(** The include guard of app_config.h. *)
Definition CONFIG_H_ : string := "CONFIG_H_".

(** app_config.h, directive by directive (lines 39-77).  Lines that are
    commented out ([//#define ALTERA_PLATFORM], [//#define IIO_SUPPORT],
    [//#define HAVE_DEBUG_MESSAGES], ...) are comments, not directives. *)
Definition app_config_h : list directive :=
  [ Ifndef CONFIG_H_
      [ Define CONFIG_H_ Empty;
        Define "HAVE_SPLIT_GAIN_TABLE" (IntLit 0);
        Define "HAVE_TDD_SYNTH_TABLE" (IntLit 0);
        Define "AD9361_DEVICE" (IntLit 1);
        Define "AD9364_DEVICE" (IntLit 0);
        Define "AD9363A_DEVICE" (IntLit 0);
        Ifndef "WINDOWS_PLATFORM"
          [ Define "XILINX_PLATFORM" Empty ];
        Define "ADC_DMA_EXAMPLE" Empty;
        Ifndef "IIO_SUPPORT"
          [ Define "HAVE_VERBOSE_MESSAGES" Empty ]
      ]
  ].

(** Including the header where the macros of [requested] are defined. *)
Definition resolve (requested : macro_env) : outcome :=
  exec_group app_config_h requested.

(** The header is read for the first time: its include guard is not yet
    defined. *)
Definition first_inclusion (requested : macro_env) : Prop :=
  requested !! CONFIG_H_ = None.

(** ** Options and queries *)

(** The three option groups of the header, each option with the macro that
    carries it. *)
Inductive DeviceVariant : Type := AD9361 | AD9364 | AD9363A.

Inductive Platform : Type := Windows | Xilinx | Altera | Linux.

Inductive Feature : Type :=
| SplitGainTable
| TddSynthTable
| AdcDma
| DacDma
| AdcDmaIrq
| AxiAdcNotPresent
| TddSwitchState
| IIOSupport
| VerboseMessages
| DebugMessages.

Definition device_macro (d : DeviceVariant) : string :=
  match d with
  | AD9361 => "AD9361_DEVICE"
  | AD9364 => "AD9364_DEVICE"
  | AD9363A => "AD9363A_DEVICE"
  end.

Definition platform_macro (p : Platform) : string :=
  match p with
  | Windows => "WINDOWS_PLATFORM"
  | Xilinx => "XILINX_PLATFORM"
  | Altera => "ALTERA_PLATFORM"
  | Linux => "LINUX_PLATFORM"
  end.

Definition feature_macro (f : Feature) : string :=
  match f with
  | SplitGainTable => "HAVE_SPLIT_GAIN_TABLE"
  | TddSynthTable => "HAVE_TDD_SYNTH_TABLE"
  | AdcDma => "ADC_DMA_EXAMPLE"
  | DacDma => "DAC_DMA_EXAMPLE"
  | AdcDmaIrq => "ADC_DMA_IRQ_EXAMPLE"
  | AxiAdcNotPresent => "AXI_ADC_NOT_PRESENT"
  | TddSwitchState => "TDD_SWITCH_STATE_EXAMPLE"
  | IIOSupport => "IIO_SUPPORT"
  | VerboseMessages => "HAVE_VERBOSE_MESSAGES"
  | DebugMessages => "HAVE_DEBUG_MESSAGES"
  end.

Definition all_devices : list DeviceVariant := [AD9361; AD9364; AD9363A].

Definition all_platforms : list Platform := [Windows; Xilinx; Altera; Linux].

Definition all_features : list Feature :=
  [SplitGainTable; TddSynthTable; AdcDma; DacDma; AdcDmaIrq; AxiAdcNotPresent;
   TddSwitchState; IIOSupport; VerboseMessages; DebugMessages].

(** The ADC transfer modes: DMA polling, DMA interrupt, no DMA present. *)
Definition adc_transfer_modes : list Feature :=
  [AdcDma; AdcDmaIrq; AxiAdcNotPresent].

(** The recognized option names. *)
Definition recognized_options : list string :=
  map device_macro all_devices ++ map platform_macro all_platforms
  ++ map feature_macro all_features.

(** Modelled from the spec: the query [isDeviceVariant] of the output
    surface (the driver files that read the header's macros are not among
    the sources).  A device macro carries a value
    ([#define AD9361_DEVICE 1]), so it is read with [#if]. *)
Definition isDeviceVariant (cfg : macro_env) (d : DeviceVariant) : bool :=
  if_true cfg (device_macro d).

(** Modelled from the spec: the query [isPlatform]; a platform macro has an
    empty replacement list ([#define XILINX_PLATFORM]) and is read with
    [#ifdef]. *)
Definition isPlatform (cfg : macro_env) (p : Platform) : bool :=
  defined cfg (platform_macro p).

(** Modelled from the spec: the query [isFeatureEnabled].  The two table
    macros carry a value ([#define HAVE_SPLIT_GAIN_TABLE 0]) and are read
    with [#if]; every other toggle is a macro that is defined or not. *)
Definition isFeatureEnabled (cfg : macro_env) (f : Feature) : bool :=
  match f with
  | SplitGainTable | TddSynthTable => if_true cfg (feature_macro f)
  | _ => defined cfg (feature_macro f)
  end.

(** The members of a group that are true in a macro table. *)
Definition active_devices (cfg : macro_env) : list DeviceVariant :=
  List.filter (isDeviceVariant cfg) all_devices.

Definition active_platforms (cfg : macro_env) : list Platform :=
  List.filter (isPlatform cfg) all_platforms.

Definition active_adc_modes (cfg : macro_env) : list Feature :=
  List.filter (isFeatureEnabled cfg) adc_transfer_modes.

(** ** Option sets *)

(** The macro table in which exactly the listed macros are defined, as a
    build requests them before the header is included ([-DNAME=1] on the
    command line, [#define NAME] in the including file). *)
Definition predefine (ds : list (string * replacement)) : macro_env :=
  list_to_map ds.

(** The macros app_config.h defines when nothing is predefined (see
    [resolve_default_build]). *)
Definition default_build : list (string * replacement) :=
  [(CONFIG_H_, Empty);
   ("HAVE_SPLIT_GAIN_TABLE", IntLit 0); ("HAVE_TDD_SYNTH_TABLE", IntLit 0);
   ("AD9361_DEVICE", IntLit 1); ("AD9364_DEVICE", IntLit 0);
   ("AD9363A_DEVICE", IntLit 0); ("XILINX_PLATFORM", Empty);
   ("ADC_DMA_EXAMPLE", Empty); ("HAVE_VERBOSE_MESSAGES", Empty)].

(** The option set that requests what the header ships with: AD9361,
    Xilinx, verbose messages, ADC DMA polling; no IIO support, no debug
    messages. *)
Definition example_request : macro_env :=
  predefine [("AD9361_DEVICE", IntLit 1); ("XILINX_PLATFORM", Empty);
             ("HAVE_VERBOSE_MESSAGES", Empty); ("ADC_DMA_EXAMPLE", Empty)].

Definition linux_request : macro_env :=
  predefine [("LINUX_PLATFORM", Empty)].

Definition windows_request : macro_env :=
  predefine [("WINDOWS_PLATFORM", Empty)].

Definition windows_xilinx_request : macro_env :=
  predefine [("WINDOWS_PLATFORM", Empty); ("XILINX_PLATFORM", Empty)].

Definition iio_request : macro_env :=
  predefine [("IIO_SUPPORT", Empty)].

Definition iio_verbose_request : macro_env :=
  predefine [("IIO_SUPPORT", Empty); ("HAVE_VERBOSE_MESSAGES", Empty)].

Definition iio_debug_request : macro_env :=
  predefine [("IIO_SUPPORT", Empty); ("HAVE_DEBUG_MESSAGES", Empty)].

Definition adc_irq_request : macro_env :=
  predefine [("ADC_DMA_IRQ_EXAMPLE", Empty)].

Definition split_gain_request : macro_env :=
  predefine [("HAVE_SPLIT_GAIN_TABLE", IntLit 1)].

Definition tables_request : macro_env :=
  predefine [("HAVE_SPLIT_GAIN_TABLE", IntLit 1);
             ("HAVE_TDD_SYNTH_TABLE", IntLit 1)].

(** [FMCOMMS5] is a board macro the header mentions in a comment (line 56);
    it is not one of the recognized options. *)
Definition fmcomms5_request : macro_env :=
  predefine [("FMCOMMS5", Empty)].

(** ** Proof steps *)

(** A lookup in a table built by [#define]s of distinct literal names. *)
Ltac through_defines :=
  unfold CONFIG_H_;
  repeat first
    [ rewrite lookup_insert_eq
    | rewrite lookup_insert_ne by discriminate ].

(** A literal name is none of those the header has a [#define] for. *)
Ltac not_written :=
  unfold CONFIG_H_; simpl; intuition discriminate.

(** A lookup at a literal name in a table built by [#define]s and [#undef]s
    of literal names over the empty table. *)
Ltac through_tables :=
  unfold CONFIG_H_;
  repeat first
    [ rewrite lookup_insert_eq
    | rewrite lookup_insert_ne by discriminate
    | rewrite lookup_delete_eq
    | rewrite lookup_delete_ne by discriminate
    | rewrite lookup_empty ].

(** ** Induction over nested groups *)

(** A group nests directives inside a directive, so the induction principle
    pairs a property of directives with one of groups. *)
Section directive_induction.
Variable P : directive -> Prop.
Variable Q : list directive -> Prop.
Hypothesis P_Define : forall name body, P (Define name body).
Hypothesis P_Undef : forall name, P (Undef name).
Hypothesis P_Ifndef : forall name group, Q group -> P (Ifndef name group).
Hypothesis P_Error : forall msg, P (Error msg).
Hypothesis Q_nil : Q [].
Hypothesis Q_cons : forall d ds, P d -> Q ds -> Q (d :: ds).

Fixpoint directive_ind (d : directive) : P d :=
  match d with
  | Define name body => P_Define name body
  | Undef name => P_Undef name
  | Ifndef name group =>
      P_Ifndef name group
        ((fix all (ds : list directive) : Q ds :=
            match ds with
            | [] => Q_nil
            | d' :: ds' => Q_cons d' ds' (directive_ind d') (all ds')
            end) group)
  | Error msg => P_Error msg
  end.

Lemma group_ind (ds : list directive) : Q ds.
Proof.
  induction ds as [|d ds IH]; [exact Q_nil|].
  apply Q_cons; [apply directive_ind | exact IH].
Qed.
End directive_induction.

(** ** What any group of directives can do *)

Lemma exec_group_cons d ds env :
  exec_group (d :: ds) env =
  match exec d env with
  | Ok env' => exec_group ds env'
  | Failed msg => Failed msg
  end.
Proof. reflexivity. Qed.

Lemma exec_Ifndef name group env :
  exec (Ifndef name group) env =
  if defined env name then Ok env else exec_group group env.
Proof. reflexivity. Qed.

Lemma defined_insert env name body name' :
  defined (<[name := body]> env) name' =
  if decide (name = name') then true else defined env name'.
Proof.
  unfold defined. rewrite lookup_insert.
  destruct (decide (name = name')); reflexivity.
Qed.

(** A group without [#error] always preprocesses to a macro table. *)
Lemma exec_group_total ds :
  existsb has_error ds = false ->
  forall env, exists env', exec_group ds env = Ok env'.
Proof.
  revert ds.
  apply (group_ind
           (fun d => has_error d = false ->
                     forall env, exists env', exec d env = Ok env')
           (fun ds => existsb has_error ds = false ->
                      forall env, exists env', exec_group ds env = Ok env')).
  - intros name body _ env. simpl. eauto.
  - intros name _ env. simpl. eauto.
  - intros name group IH Hg env. rewrite exec_Ifndef.
    destruct (defined env name); [eauto | apply IH, Hg].
  - intros msg Hd. discriminate Hd.
  - intros _ env. simpl. eauto.
  - intros d ds IHd IHds Hds env. simpl in Hds.
    apply orb_false_iff in Hds as [Hd Hds].
    rewrite exec_group_cons.
    destruct (IHd Hd env) as [env1 ->]. apply IHds, Hds.
Qed.

(** A group without [#undef] never removes a macro: a name that is defined
    before it is defined after it. *)
Lemma exec_group_keeps_defined ds :
  existsb has_undef ds = false ->
  forall env env', exec_group ds env = Ok env' ->
  forall name, defined env name = true -> defined env' name = true.
Proof.
  revert ds.
  apply (group_ind
           (fun d => has_undef d = false ->
                     forall env env', exec d env = Ok env' ->
                     forall name, defined env name = true ->
                                  defined env' name = true)
           (fun ds => existsb has_undef ds = false ->
                      forall env env', exec_group ds env = Ok env' ->
                      forall name, defined env name = true ->
                                   defined env' name = true)).
  - intros name body _ env env' [= <-] name' Hdef.
    rewrite defined_insert. destruct (decide (name = name')); [reflexivity | exact Hdef].
  - intros name Hd. discriminate Hd.
  - intros name group IH Hg env env' Hex name' Hdef.
    rewrite exec_Ifndef in Hex. destruct (defined env name).
    + injection Hex as <-. exact Hdef.
    + eapply IH; eauto.
  - intros msg _ env env' Hex. discriminate Hex.
  - intros _ env env' [= <-] name Hdef. exact Hdef.
  - intros d ds IHd IHds Hds env env' Hex name Hdef. simpl in Hds.
    apply orb_false_iff in Hds as [Hd Hds].
    rewrite exec_group_cons in Hex.
    destruct (exec d env) as [env1|msg] eqn:Hd1; [|discriminate Hex].
    eapply IHds; eauto.
Qed.

(** A group leaves alone every macro it has no [#define] or [#undef] for. *)
Lemma exec_group_frame ds :
  forall env env', exec_group ds env = Ok env' ->
  forall name, ~ In name (flat_map written ds) -> env' !! name = env !! name.
Proof.
  revert ds.
  apply (group_ind
           (fun d => forall env env', exec d env = Ok env' ->
                     forall name, ~ In name (written d) ->
                                  env' !! name = env !! name)
           (fun ds => forall env env', exec_group ds env = Ok env' ->
                      forall name, ~ In name (flat_map written ds) ->
                                   env' !! name = env !! name)).
  - intros name body env env' [= <-] name' Hnot.
    apply lookup_insert_ne. intros ->. apply Hnot. left. reflexivity.
  - intros name env env' [= <-] name' Hnot.
    apply lookup_delete_ne. intros ->. apply Hnot. left. reflexivity.
  - intros name group IH env env' Hex name' Hnot.
    rewrite exec_Ifndef in Hex. destruct (defined env name).
    + injection Hex as <-. reflexivity.
    + eapply IH; eauto.
  - intros msg env env' Hex. discriminate Hex.
  - intros env env' [= <-] name _. reflexivity.
  - intros d ds IHd IHds env env' Hex name Hnot.
    rewrite exec_group_cons in Hex.
    destruct (exec d env) as [env1|msg] eqn:Hd1; [|discriminate Hex].
    simpl in Hnot. rewrite in_app_iff in Hnot.
    rewrite (IHds env1 env' Hex name); [apply (IHd env env1 Hd1 name)|]; tauto.
Qed.

(** ** What app_config.h does *)

Lemma app_config_h_written :
  flat_map written app_config_h =
  [CONFIG_H_; "HAVE_SPLIT_GAIN_TABLE"; "HAVE_TDD_SYNTH_TABLE";
   "AD9361_DEVICE"; "AD9364_DEVICE"; "AD9363A_DEVICE"; "XILINX_PLATFORM";
   "ADC_DMA_EXAMPLE"; "HAVE_VERBOSE_MESSAGES"].
Proof. reflexivity. Qed.

(** The header on its own, with no macro predefined. *)
Example resolve_default_build : resolve ∅ = Ok (predefine default_build).
Proof. vm_compute. reflexivity. Qed.

(** With [WINDOWS_PLATFORM] predefined, line 52 is skipped. *)
Example resolve_windows_build :
  resolve windows_request =
  Ok (predefine
        [("WINDOWS_PLATFORM", Empty); (CONFIG_H_, Empty);
         ("HAVE_SPLIT_GAIN_TABLE", IntLit 0); ("HAVE_TDD_SYNTH_TABLE", IntLit 0);
         ("AD9361_DEVICE", IntLit 1); ("AD9364_DEVICE", IntLit 0);
         ("AD9363A_DEVICE", IntLit 0);
         ("ADC_DMA_EXAMPLE", Empty); ("HAVE_VERBOSE_MESSAGES", Empty)]).
Proof. vm_compute. reflexivity. Qed.

(** With [XILINX_PLATFORM] predefined as well it stays defined. *)
Example resolve_windows_xilinx_build :
  resolve windows_xilinx_request =
  Ok (predefine (("WINDOWS_PLATFORM", Empty) :: default_build)).
Proof. vm_compute. reflexivity. Qed.

(** Another platform macro does not keep line 52 from defining
    [XILINX_PLATFORM]. *)
Example resolve_linux_build :
  resolve linux_request =
  Ok (predefine (("LINUX_PLATFORM", Empty) :: default_build)).
Proof. vm_compute. reflexivity. Qed.

(** With [IIO_SUPPORT] predefined, line 70 is skipped. *)
Example resolve_iio_build :
  resolve iio_request =
  Ok (predefine
        [("IIO_SUPPORT", Empty); (CONFIG_H_, Empty);
         ("HAVE_SPLIT_GAIN_TABLE", IntLit 0); ("HAVE_TDD_SYNTH_TABLE", IntLit 0);
         ("AD9361_DEVICE", IntLit 1); ("AD9364_DEVICE", IntLit 0);
         ("AD9363A_DEVICE", IntLit 0); ("XILINX_PLATFORM", Empty);
         ("ADC_DMA_EXAMPLE", Empty)]).
Proof. vm_compute. reflexivity. Qed.

(** A message macro that is predefined stays defined under [IIO_SUPPORT]. *)
Example resolve_iio_verbose_build :
  resolve iio_verbose_request =
  Ok (predefine (("IIO_SUPPORT", Empty) :: default_build)).
Proof. vm_compute. reflexivity. Qed.

Example resolve_iio_debug_build :
  resolve iio_debug_request =
  Ok (predefine
        [("IIO_SUPPORT", Empty); ("HAVE_DEBUG_MESSAGES", Empty);
         (CONFIG_H_, Empty);
         ("HAVE_SPLIT_GAIN_TABLE", IntLit 0); ("HAVE_TDD_SYNTH_TABLE", IntLit 0);
         ("AD9361_DEVICE", IntLit 1); ("AD9364_DEVICE", IntLit 0);
         ("AD9363A_DEVICE", IntLit 0); ("XILINX_PLATFORM", Empty);
         ("ADC_DMA_EXAMPLE", Empty)]).
Proof. vm_compute. reflexivity. Qed.

(** Macros the header does not mention are carried along. *)
Example resolve_adc_irq_build :
  resolve adc_irq_request =
  Ok (predefine (("ADC_DMA_IRQ_EXAMPLE", Empty) :: default_build)).
Proof. vm_compute. reflexivity. Qed.

Example resolve_fmcomms5_build :
  resolve fmcomms5_request =
  Ok (predefine (("FMCOMMS5", Empty) :: default_build)).
Proof. vm_compute. reflexivity. Qed.

(** A value requested for a macro the header defines is replaced. *)
Example resolve_split_gain_build :
  resolve split_gain_request = Ok (predefine default_build).
Proof. vm_compute. reflexivity. Qed.

Example resolve_tables_build :
  resolve tables_request = Ok (predefine default_build).
Proof. vm_compute. reflexivity. Qed.

(** A second inclusion changes nothing. *)
Example resolve_default_build_again :
  resolve (predefine default_build) = Ok (predefine default_build).
Proof. vm_compute. reflexivity. Qed.

(** The header has no [#error]: it accepts every option set. *)
Lemma resolve_total requested : exists cfg, resolve requested = Ok cfg.
Proof. apply exec_group_total. reflexivity. Qed.

(** The header has no [#undef]: what was requested by defining a macro stays
    defined. *)
Lemma resolve_keeps_defined requested cfg name :
  resolve requested = Ok cfg ->
  defined requested name = true -> defined cfg name = true.
Proof.
  intros Hres. apply (exec_group_keeps_defined app_config_h); [reflexivity | exact Hres].
Qed.

(** Macros the header has no [#define] for come out as they went in. *)
Lemma resolve_frame requested cfg name :
  resolve requested = Ok cfg ->
  ~ In name (flat_map written app_config_h) ->
  cfg !! name = requested !! name.
Proof. intros Hres. apply (exec_group_frame app_config_h), Hres. Qed.

(** A second inclusion is stopped by the include guard. *)
Lemma resolve_guarded env :
  defined env CONFIG_H_ = true -> resolve env = Ok env.
Proof.
  intros Hg. unfold resolve, app_config_h.
  rewrite exec_group_cons, exec_Ifndef, Hg. reflexivity.
Qed.

(** The first inclusion, directive by directive. *)
Lemma resolve_first requested cfg :
  first_inclusion requested ->
  resolve requested = Ok cfg ->
  let e1 :=
    <["AD9363A_DEVICE" := IntLit 0]>
      (<["AD9364_DEVICE" := IntLit 0]>
         (<["AD9361_DEVICE" := IntLit 1]>
            (<["HAVE_TDD_SYNTH_TABLE" := IntLit 0]>
               (<["HAVE_SPLIT_GAIN_TABLE" := IntLit 0]>
                  (<[CONFIG_H_ := Empty]> requested))))) in
  let e2 :=
    if defined requested "WINDOWS_PLATFORM" then e1
    else <["XILINX_PLATFORM" := Empty]> e1 in
  let e3 := <["ADC_DMA_EXAMPLE" := Empty]> e2 in
  cfg = if defined requested "IIO_SUPPORT" then e3
        else <["HAVE_VERBOSE_MESSAGES" := Empty]> e3.
Proof.
  intros Hfirst Hres. cbv zeta.
  unfold resolve, app_config_h, exec_group in Hres.
  cbn [run_group exec] in Hres.
  unfold defined in Hres at 1. rewrite Hfirst in Hres.
  rewrite !defined_insert in Hres.
  repeat (destruct (decide _) as [Heq|_] in Hres; [discriminate Heq|]).
  destruct (defined requested "WINDOWS_PLATFORM"); cbv iota in Hres;
    rewrite !defined_insert in Hres;
    repeat (destruct (decide _) as [Heq|_] in Hres; [discriminate Heq|]);
    destruct (defined requested "IIO_SUPPORT"); congruence.
Qed.

Lemma resolve_tables requested cfg :
  first_inclusion requested -> resolve requested = Ok cfg ->
  cfg !! "HAVE_SPLIT_GAIN_TABLE" = Some (IntLit 0) /\
  cfg !! "HAVE_TDD_SYNTH_TABLE" = Some (IntLit 0).
Proof.
  intros Hfirst Hres. rewrite (resolve_first _ _ Hfirst Hres).
  destruct (defined requested "WINDOWS_PLATFORM");
    destruct (defined requested "IIO_SUPPORT");
    split; through_defines; reflexivity.
Qed.

Lemma resolve_devices requested cfg :
  first_inclusion requested -> resolve requested = Ok cfg ->
  cfg !! "AD9361_DEVICE" = Some (IntLit 1) /\
  cfg !! "AD9364_DEVICE" = Some (IntLit 0) /\
  cfg !! "AD9363A_DEVICE" = Some (IntLit 0).
Proof.
  intros Hfirst Hres. rewrite (resolve_first _ _ Hfirst Hres).
  destruct (defined requested "WINDOWS_PLATFORM");
    destruct (defined requested "IIO_SUPPORT");
    repeat split; through_defines; reflexivity.
Qed.

Lemma resolve_xilinx requested cfg :
  first_inclusion requested -> resolve requested = Ok cfg ->
  cfg !! "XILINX_PLATFORM" =
  if defined requested "WINDOWS_PLATFORM" then requested !! "XILINX_PLATFORM"
  else Some Empty.
Proof.
  intros Hfirst Hres. rewrite (resolve_first _ _ Hfirst Hres).
  destruct (defined requested "WINDOWS_PLATFORM");
    destruct (defined requested "IIO_SUPPORT");
    through_defines; reflexivity.
Qed.

Lemma resolve_adc_dma requested cfg :
  first_inclusion requested -> resolve requested = Ok cfg ->
  cfg !! "ADC_DMA_EXAMPLE" = Some Empty.
Proof.
  intros Hfirst Hres. rewrite (resolve_first _ _ Hfirst Hres).
  destruct (defined requested "WINDOWS_PLATFORM");
    destruct (defined requested "IIO_SUPPORT");
    through_defines; reflexivity.
Qed.

Lemma resolve_verbose requested cfg :
  first_inclusion requested -> resolve requested = Ok cfg ->
  cfg !! "HAVE_VERBOSE_MESSAGES" =
  if defined requested "IIO_SUPPORT" then requested !! "HAVE_VERBOSE_MESSAGES"
  else Some Empty.
Proof.
  intros Hfirst Hres. rewrite (resolve_first _ _ Hfirst Hres).
  destruct (defined requested "WINDOWS_PLATFORM");
    destruct (defined requested "IIO_SUPPORT");
    through_defines; reflexivity.
Qed.

(** The same facts, as the queries read them. *)

Lemma defined_frame requested cfg name :
  resolve requested = Ok cfg ->
  ~ In name (flat_map written app_config_h) ->
  defined cfg name = defined requested name.
Proof.
  intros Hres Hnot. unfold defined. rewrite (resolve_frame _ _ _ Hres Hnot).
  reflexivity.
Qed.

Lemma resolve_isDeviceVariant requested cfg d :
  first_inclusion requested -> resolve requested = Ok cfg ->
  isDeviceVariant cfg d = match d with AD9361 => true | _ => false end.
Proof.
  intros Hfirst Hres.
  destruct (resolve_devices _ _ Hfirst Hres) as (H1 & H4 & H3).
  unfold isDeviceVariant, if_true, if_value.
  destruct d; simpl; [rewrite H1 | rewrite H4 | rewrite H3]; reflexivity.
Qed.

Lemma resolve_isPlatform requested cfg p :
  first_inclusion requested -> resolve requested = Ok cfg ->
  isPlatform cfg p =
  match p with
  | Xilinx => isPlatform requested Xilinx || negb (isPlatform requested Windows)
  | _ => isPlatform requested p
  end.
Proof.
  intros Hfirst Hres. unfold isPlatform.
  destruct p; simpl; try (apply (defined_frame _ _ _ Hres); not_written).
  unfold defined at 1. rewrite (resolve_xilinx _ _ Hfirst Hres).
  destruct (defined requested "WINDOWS_PLATFORM"); simpl.
  - rewrite orb_false_r. reflexivity.
  - rewrite orb_true_r. reflexivity.
Qed.

Lemma resolve_isFeatureEnabled requested cfg f :
  first_inclusion requested -> resolve requested = Ok cfg ->
  isFeatureEnabled cfg f =
  match f with
  | SplitGainTable | TddSynthTable => false
  | AdcDma => true
  | VerboseMessages =>
      isFeatureEnabled requested VerboseMessages
      || negb (isFeatureEnabled requested IIOSupport)
  | _ => isFeatureEnabled requested f
  end.
Proof.
  intros Hfirst Hres.
  destruct (resolve_tables _ _ Hfirst Hres) as [Hsplit Htdd].
  destruct f; simpl;
    try (apply (defined_frame _ _ _ Hres); not_written).
  - unfold if_true, if_value. rewrite Hsplit. reflexivity.
  - unfold if_true, if_value. rewrite Htdd. reflexivity.
  - unfold defined. rewrite (resolve_adc_dma _ _ Hfirst Hres). reflexivity.
  - unfold defined at 1. rewrite (resolve_verbose _ _ Hfirst Hres).
    destruct (defined requested "IIO_SUPPORT"); simpl.
    + rewrite orb_false_r. reflexivity.
    + rewrite orb_true_r. reflexivity.
Qed.

Lemma resolve_defines_guard requested cfg :
  resolve requested = Ok cfg -> defined cfg CONFIG_H_ = true.
Proof.
  intros Hres. destruct (defined requested CONFIG_H_) eqn:Hg.
  - rewrite (resolve_guarded _ Hg) in Hres. injection Hres as <-. exact Hg.
  - assert (Hfirst : first_inclusion requested).
    { unfold first_inclusion. unfold defined in Hg.
      destruct (requested !! CONFIG_H_); [discriminate Hg | reflexivity]. }
    rewrite (resolve_first _ _ Hfirst Hres).
    destruct (defined requested "WINDOWS_PLATFORM");
      destruct (defined requested "IIO_SUPPORT");
      unfold defined; through_defines; reflexivity.
Qed.

Lemma written_recognized name :
  In name (flat_map written app_config_h) ->
  In name recognized_options \/ name = CONFIG_H_.
Proof.
  rewrite app_config_h_written. simpl.
  intros [<- | [<- | [<- | [<- | [<- | [<- | [<- | [<- | [<- | []]]]]]]]]];
    [right; reflexivity | left ..];
    unfold recognized_options; simpl;
    repeat first [left; reflexivity | right].
Qed.

(** ** The specified properties *)

(** C1 (as the header has it).  The header accepts every option set: at its
    first inclusion resolution succeeds, exactly one device variant is true
    in the result (AD9361, whatever was requested), and exactly one
    platform is true if and only if the option set requests neither Altera
    nor Linux and does not request Windows together with Xilinx. *)
Theorem resolve_device_and_platform_groups requested :
  first_inclusion requested ->
  exists cfg,
    resolve requested = Ok cfg /\
    active_devices cfg = [AD9361] /\
    (length (active_platforms cfg) = 1 <->
     isPlatform requested Altera = false /\
     isPlatform requested Linux = false /\
     isPlatform requested Windows && isPlatform requested Xilinx = false).
Proof.
  intros Hfirst. destruct (resolve_total requested) as [cfg Hres].
  exists cfg. split; [exact Hres|]. split.
  - unfold active_devices, all_devices. simpl.
    rewrite !(resolve_isDeviceVariant _ _ _ Hfirst Hres). reflexivity.
  - unfold active_platforms, all_platforms. simpl.
    rewrite !(resolve_isPlatform _ _ _ Hfirst Hres).
    destruct (isPlatform requested Windows), (isPlatform requested Xilinx),
      (isPlatform requested Altera), (isPlatform requested Linux);
      simpl; split; intros H; try discriminate H; try reflexivity;
      try (destruct H as (H1 & H2 & H3); discriminate);
      repeat split.
Qed.

Lemma resolve_device_and_platform_groups_witness :
  first_inclusion windows_request /\
  exists cfg,
    resolve windows_request = Ok cfg /\
    active_devices cfg = [AD9361] /\
    (length (active_platforms cfg) = 1 <->
     isPlatform windows_request Altera = false /\
     isPlatform windows_request Linux = false /\
     isPlatform windows_request Windows && isPlatform windows_request Xilinx
     = false).
Proof.
  split; [reflexivity|].
  apply (resolve_device_and_platform_groups windows_request). reflexivity.
Defined.

(** C1 fails as stated: with [LINUX_PLATFORM] requested the header neither
    fails nor yields one platform; the result has Xilinx and Linux. *)
Lemma linux_request_two_platforms :
  ~ ((exists cfg,
        resolve linux_request = Ok cfg /\
        length (active_devices cfg) = 1 /\
        length (active_platforms cfg) = 1)
     \/ (exists msg, resolve linux_request = Failed msg)).
Proof.
  intros [(cfg & Hres & _ & Hplat) | (msg & Hres)].
  - assert (Hfirst : first_inclusion linux_request) by reflexivity.
    unfold active_platforms, all_platforms in Hplat.
    cbn [List.filter] in Hplat.
    rewrite !(resolve_isPlatform _ _ _ Hfirst Hres) in Hplat.
    vm_compute in Hplat. discriminate Hplat.
  - destruct (resolve_total linux_request) as [cfg Hcfg]. congruence.
Qed.

(** C2 (as the header has it).  When [IIO_SUPPORT] is requested the header
    skips its guarded block (lines 69-72) and enables neither message
    toggle itself: verbose and debug messages come out exactly as the
    option set requested them, so both are off when neither was requested,
    and one that was requested stays on. *)
Theorem resolve_iio_skips_messages requested :
  first_inclusion requested ->
  isFeatureEnabled requested IIOSupport = true ->
  exists cfg,
    resolve requested = Ok cfg /\
    isFeatureEnabled cfg VerboseMessages
    = isFeatureEnabled requested VerboseMessages /\
    isFeatureEnabled cfg DebugMessages
    = isFeatureEnabled requested DebugMessages.
Proof.
  intros Hfirst Hiio. destruct (resolve_total requested) as [cfg Hres].
  exists cfg. split; [exact Hres|].
  rewrite !(resolve_isFeatureEnabled _ _ _ Hfirst Hres), Hiio. simpl.
  split; [apply orb_false_r | reflexivity].
Qed.

Lemma resolve_iio_skips_messages_witness :
  first_inclusion iio_request /\
  isFeatureEnabled iio_request IIOSupport = true /\
  exists cfg,
    resolve iio_request = Ok cfg /\
    isFeatureEnabled cfg VerboseMessages
    = isFeatureEnabled iio_request VerboseMessages /\
    isFeatureEnabled cfg DebugMessages
    = isFeatureEnabled iio_request DebugMessages.
Proof.
  split; [reflexivity|]. split; [reflexivity|].
  apply (resolve_iio_skips_messages iio_request); reflexivity.
Defined.

(** C2 fails as stated: with [IIO_SUPPORT] and [HAVE_VERBOSE_MESSAGES]
    both requested, verbose messages are still enabled in the result. *)
Lemma iio_verbose_request_keeps_verbose :
  ~ (isFeatureEnabled iio_verbose_request IIOSupport = true ->
     forall cfg,
       resolve iio_verbose_request = Ok cfg ->
       isFeatureEnabled cfg VerboseMessages = false /\
       isFeatureEnabled cfg DebugMessages = false).
Proof.
  intros H.
  destruct (resolve_total iio_verbose_request) as [cfg Hres].
  assert (Hfirst : first_inclusion iio_verbose_request) by reflexivity.
  destruct (H eq_refl cfg Hres) as [Hverbose _].
  rewrite (resolve_isFeatureEnabled _ _ _ Hfirst Hres) in Hverbose.
  vm_compute in Hverbose. discriminate Hverbose.
Qed.

(** C3 (as the header has it).  The header has no dependency of debug
    messages on verbose messages: [HAVE_DEBUG_MESSAGES] comes out exactly
    as requested, whether or not verbose messages resolve to off (which
    they do exactly when [IIO_SUPPORT] is requested and
    [HAVE_VERBOSE_MESSAGES] is not). *)
Theorem resolve_debug_as_requested requested :
  first_inclusion requested ->
  exists cfg,
    resolve requested = Ok cfg /\
    (isFeatureEnabled cfg VerboseMessages = false <->
     isFeatureEnabled requested IIOSupport = true /\
     isFeatureEnabled requested VerboseMessages = false) /\
    isFeatureEnabled cfg DebugMessages
    = isFeatureEnabled requested DebugMessages.
Proof.
  intros Hfirst. destruct (resolve_total requested) as [cfg Hres].
  exists cfg. split; [exact Hres|].
  rewrite !(resolve_isFeatureEnabled _ _ _ Hfirst Hres).
  split; [|reflexivity].
  destruct (isFeatureEnabled requested VerboseMessages),
    (isFeatureEnabled requested IIOSupport); simpl; intuition discriminate.
Qed.

Lemma resolve_debug_as_requested_witness :
  first_inclusion iio_debug_request /\
  exists cfg,
    resolve iio_debug_request = Ok cfg /\
    (isFeatureEnabled cfg VerboseMessages = false <->
     isFeatureEnabled iio_debug_request IIOSupport = true /\
     isFeatureEnabled iio_debug_request VerboseMessages = false) /\
    isFeatureEnabled cfg DebugMessages
    = isFeatureEnabled iio_debug_request DebugMessages.
Proof.
  split; [reflexivity|].
  apply (resolve_debug_as_requested iio_debug_request). reflexivity.
Defined.

(** C3 fails as stated: with [IIO_SUPPORT] and [HAVE_DEBUG_MESSAGES]
    requested, verbose messages resolve to off and debug messages are
    still enabled. *)
Lemma iio_debug_request_keeps_debug :
  ~ (forall cfg,
       resolve iio_debug_request = Ok cfg ->
       isFeatureEnabled cfg VerboseMessages = false ->
       isFeatureEnabled cfg DebugMessages = false).
Proof.
  intros H.
  destruct (resolve_total iio_debug_request) as [cfg Hres].
  assert (Hfirst : first_inclusion iio_debug_request) by reflexivity.
  specialize (H cfg Hres).
  rewrite !(resolve_isFeatureEnabled _ _ _ Hfirst Hres) in H.
  specialize (H eq_refl). vm_compute in H. discriminate H.
Qed.

(** C4 (as the header has it).  The header does not check the ADC transfer
    modes and never fails on them: DMA polling ([ADC_DMA_EXAMPLE]) is
    always on in the result, DMA interrupt and DMA-not-present come out as
    requested, so at most one mode is on exactly when neither of these two
    was requested. *)
Theorem resolve_adc_transfer_modes requested :
  first_inclusion requested ->
  exists cfg,
    resolve requested = Ok cfg /\
    isFeatureEnabled cfg AdcDma = true /\
    isFeatureEnabled cfg AdcDmaIrq = isFeatureEnabled requested AdcDmaIrq /\
    isFeatureEnabled cfg AxiAdcNotPresent
    = isFeatureEnabled requested AxiAdcNotPresent /\
    (length (active_adc_modes cfg) <= 1 <->
     isFeatureEnabled requested AdcDmaIrq = false /\
     isFeatureEnabled requested AxiAdcNotPresent = false).
Proof.
  intros Hfirst. destruct (resolve_total requested) as [cfg Hres].
  exists cfg. split; [exact Hres|].
  unfold active_adc_modes, adc_transfer_modes. cbn [List.filter].
  rewrite !(resolve_isFeatureEnabled _ _ _ Hfirst Hres).
  repeat split; try tauto.
  - destruct (isFeatureEnabled requested AdcDmaIrq); [|reflexivity].
    destruct (isFeatureEnabled requested AxiAdcNotPresent); simpl in *; lia.
  - destruct (isFeatureEnabled requested AxiAdcNotPresent); [|reflexivity].
    destruct (isFeatureEnabled requested AdcDmaIrq); simpl in *; lia.
  - intros [-> ->]. simpl. lia.
Qed.

Lemma resolve_adc_transfer_modes_witness :
  first_inclusion adc_irq_request /\
  exists cfg,
    resolve adc_irq_request = Ok cfg /\
    isFeatureEnabled cfg AdcDma = true /\
    isFeatureEnabled cfg AdcDmaIrq
    = isFeatureEnabled adc_irq_request AdcDmaIrq /\
    isFeatureEnabled cfg AxiAdcNotPresent
    = isFeatureEnabled adc_irq_request AxiAdcNotPresent /\
    (length (active_adc_modes cfg) <= 1 <->
     isFeatureEnabled adc_irq_request AdcDmaIrq = false /\
     isFeatureEnabled adc_irq_request AxiAdcNotPresent = false).
Proof.
  split; [reflexivity|].
  apply (resolve_adc_transfer_modes adc_irq_request). reflexivity.
Defined.

(** C4 fails as stated: with [ADC_DMA_IRQ_EXAMPLE] requested (one mode, so
    no violation to report) the header succeeds with two modes on, DMA
    polling and DMA interrupt. *)
Lemma adc_irq_request_two_modes :
  ~ ((forall cfg,
        resolve adc_irq_request = Ok cfg ->
        length (active_adc_modes cfg) <= 1)
     /\ (length (active_adc_modes adc_irq_request) <> 1 ->
         exists msg, resolve adc_irq_request = Failed msg)).
Proof.
  intros [Hone _].
  destruct (resolve_total adc_irq_request) as [cfg Hres].
  specialize (Hone cfg Hres).
  unfold active_adc_modes, adc_transfer_modes in Hone.
  cbn [List.filter] in Hone.
  assert (Hfirst : first_inclusion adc_irq_request) by reflexivity.
  rewrite !(resolve_isFeatureEnabled _ _ _ Hfirst Hres) in Hone.
  vm_compute in Hone. lia.
Qed.

(** C5.  Resolution is deterministic and idempotent: two runs on the same
    option set end the same way, the result depends on nothing but which
    macros the option set defines, and including the header again in the
    resolved configuration changes nothing (the include guard of lines
    39-40). *)
Theorem resolve_deterministic_idempotent requested :
  (forall r1 r2, resolve requested = r1 -> resolve requested = r2 -> r1 = r2)
  /\ (forall requested' : macro_env,
        (forall name, requested' !! name = requested !! name) ->
        resolve requested' = resolve requested)
  /\ exists cfg, resolve requested = Ok cfg /\ resolve cfg = Ok cfg.
Proof.
  split; [|split].
  - intros r1 r2 <- <-. reflexivity.
  - intros requested' Hsame. apply map_eq in Hsame. rewrite Hsame. reflexivity.
  - destruct (resolve_total requested) as [cfg Hres]. exists cfg.
    split; [exact Hres|].
    apply resolve_guarded, (resolve_defines_guard requested), Hres.
Qed.

(** C6 (as the header has it).  The header rejects no option name: every
    option set resolves, and a name outside the recognized set (the include
    guard apart) is carried into the result with the definition it was
    requested with. *)
Theorem resolve_keeps_unrecognized requested :
  exists cfg,
    resolve requested = Ok cfg /\
    forall name,
      ~ In name recognized_options -> name <> CONFIG_H_ ->
      cfg !! name = requested !! name.
Proof.
  destruct (resolve_total requested) as [cfg Hres]. exists cfg.
  split; [exact Hres|].
  intros name Hunknown Hguard. apply (resolve_frame _ _ _ Hres).
  intros Hw. destruct (written_recognized _ Hw); contradiction.
Qed.

(** C6 fails as stated: [FMCOMMS5] is not a recognized option, and the
    option set that defines it resolves without any failure. *)
Lemma fmcomms5_request_accepted :
  ~ ((exists name,
        defined fmcomms5_request name = true /\
        ~ In name recognized_options) ->
     exists msg, resolve fmcomms5_request = Failed msg).
Proof.
  intros H. destruct H as [msg Hfail].
  - exists "FMCOMMS5". split; [reflexivity|].
    unfold recognized_options. simpl. intuition discriminate.
  - destruct (resolve_total fmcomms5_request) as [cfg Hres]. congruence.
Qed.

(** C7 (as the header has it).  The header only ever defines macros.  No
    toggle that is requested by defining its macro is cleared; DAC DMA, ADC
    DMA interrupt, DMA-not-present, the TDD switch example, IIO support and
    debug messages come out exactly as requested; ADC DMA polling is always
    set, verbose messages are set whenever IIO support is not requested,
    and the two table toggles are fixed to 0 whatever was requested. *)
Theorem resolve_only_defines requested :
  first_inclusion requested ->
  exists cfg,
    resolve requested = Ok cfg /\
    (forall f, f <> SplitGainTable -> f <> TddSynthTable ->
               isFeatureEnabled requested f = true ->
               isFeatureEnabled cfg f = true) /\
    (forall f, In f [DacDma; AdcDmaIrq; AxiAdcNotPresent; TddSwitchState;
                     IIOSupport; DebugMessages] ->
               isFeatureEnabled cfg f = isFeatureEnabled requested f) /\
    isFeatureEnabled cfg AdcDma = true /\
    isFeatureEnabled cfg VerboseMessages
    = isFeatureEnabled requested VerboseMessages
      || negb (isFeatureEnabled requested IIOSupport) /\
    isFeatureEnabled cfg SplitGainTable = false /\
    isFeatureEnabled cfg TddSynthTable = false.
Proof.
  intros Hfirst. destruct (resolve_total requested) as [cfg Hres].
  exists cfg. split; [exact Hres|]. split; [|split].
  - intros f Hsplit Htdd Hreq.
    destruct f; try contradiction; simpl in *;
      apply (resolve_keeps_defined _ _ _ Hres), Hreq.
  - intros f Hin. rewrite (resolve_isFeatureEnabled _ _ _ Hfirst Hres).
    simpl in Hin. destruct f; try reflexivity; intuition discriminate.
  - rewrite !(resolve_isFeatureEnabled _ _ _ Hfirst Hres). repeat split.
Qed.

Lemma resolve_only_defines_witness :
  first_inclusion split_gain_request /\
  exists cfg,
    resolve split_gain_request = Ok cfg /\
    (forall f, f <> SplitGainTable -> f <> TddSynthTable ->
               isFeatureEnabled split_gain_request f = true ->
               isFeatureEnabled cfg f = true) /\
    (forall f, In f [DacDma; AdcDmaIrq; AxiAdcNotPresent; TddSwitchState;
                     IIOSupport; DebugMessages] ->
               isFeatureEnabled cfg f = isFeatureEnabled split_gain_request f)
    /\ isFeatureEnabled cfg AdcDma = true /\
    isFeatureEnabled cfg VerboseMessages
    = isFeatureEnabled split_gain_request VerboseMessages
      || negb (isFeatureEnabled split_gain_request IIOSupport) /\
    isFeatureEnabled cfg SplitGainTable = false /\
    isFeatureEnabled cfg TddSynthTable = false.
Proof.
  split; [reflexivity|].
  apply (resolve_only_defines split_gain_request). reflexivity.
Defined.

(** C7 fails as stated: with [HAVE_SPLIT_GAIN_TABLE] requested as 1 (and
    nothing else), the split gain table, a toggle without a dependency,
    comes out as 0; ADC DMA polling and verbose messages, neither
    requested, come out enabled. *)
Lemma split_gain_request_changed :
  ~ (forall cfg,
       resolve split_gain_request = Ok cfg ->
       (isFeatureEnabled split_gain_request IIOSupport = true ->
        isFeatureEnabled cfg VerboseMessages = false /\
        isFeatureEnabled cfg DebugMessages = false) /\
       (isFeatureEnabled cfg VerboseMessages = false ->
        isFeatureEnabled cfg DebugMessages = false) /\
       (forall f, In f [VerboseMessages; DebugMessages] ->
                  isFeatureEnabled cfg f = true ->
                  isFeatureEnabled split_gain_request f = true) /\
       (forall f, ~ In f [VerboseMessages; DebugMessages] ->
                  isFeatureEnabled cfg f
                  = isFeatureEnabled split_gain_request f)).
Proof.
  intros H.
  assert (Hfirst : first_inclusion split_gain_request) by reflexivity.
  destruct (resolve_total split_gain_request) as [cfg Hres].
  destruct (H cfg Hres) as (_ & _ & _ & Hpass).
  assert (Hsplit : isFeatureEnabled cfg SplitGainTable
                   = isFeatureEnabled split_gain_request SplitGainTable).
  { apply Hpass. simpl. intuition discriminate. }
  rewrite (resolve_isFeatureEnabled _ _ _ Hfirst Hres) in Hsplit.
  vm_compute in Hsplit. discriminate Hsplit.
Qed.

(** C8.  The option set [{device=AD9361, platform=Xilinx, IIOSupport=false,
    VerboseMessages=true, DebugMessages=false, ADCTransferMode=DMA_polling}]
    requests exactly that, and resolves to a configuration in which AD9361
    is the device variant, Xilinx the platform, verbose messages are on and
    debug messages off. *)
Theorem resolve_example_request :
  (active_devices example_request = [AD9361] /\
   active_platforms example_request = [Xilinx] /\
   isFeatureEnabled example_request IIOSupport = false /\
   isFeatureEnabled example_request VerboseMessages = true /\
   isFeatureEnabled example_request DebugMessages = false /\
   active_adc_modes example_request = [AdcDma]) /\
  exists cfg,
    resolve example_request = Ok cfg /\
    isDeviceVariant cfg AD9361 = true /\
    isPlatform cfg Xilinx = true /\
    isFeatureEnabled cfg VerboseMessages = true /\
    isFeatureEnabled cfg DebugMessages = false.
Proof.
  split; [repeat split|].
  assert (Hfirst : first_inclusion example_request) by reflexivity.
  destruct (resolve_total example_request) as [cfg Hres]. exists cfg.
  split; [exact Hres|].
  rewrite (resolve_isDeviceVariant _ _ _ Hfirst Hres),
    (resolve_isPlatform _ _ _ Hfirst Hres),
    !(resolve_isFeatureEnabled _ _ _ Hfirst Hres).
  repeat split.
Qed.

(** C9 (as the header has it).  A requested Windows platform stays and
    keeps the header from defining [XILINX_PLATFORM], which then comes out
    as it was requested; without it the header defines [XILINX_PLATFORM].
    So at least one of the two is always true, and both are true only when
    the option set itself requests both. *)
Theorem resolve_windows_or_xilinx requested :
  first_inclusion requested ->
  exists cfg,
    resolve requested = Ok cfg /\
    isPlatform cfg Windows = isPlatform requested Windows /\
    (isPlatform requested Windows = true ->
     isPlatform cfg Xilinx = isPlatform requested Xilinx) /\
    (isPlatform requested Windows = false -> isPlatform cfg Xilinx = true) /\
    isPlatform cfg Windows && isPlatform cfg Xilinx
    = isPlatform requested Windows && isPlatform requested Xilinx /\
    isPlatform cfg Windows || isPlatform cfg Xilinx = true.
Proof.
  intros Hfirst. destruct (resolve_total requested) as [cfg Hres].
  exists cfg. split; [exact Hres|].
  rewrite !(resolve_isPlatform _ _ _ Hfirst Hres).
  destruct (isPlatform requested Windows), (isPlatform requested Xilinx);
    simpl; repeat split; intros; congruence.
Qed.

Lemma resolve_windows_or_xilinx_witness :
  first_inclusion windows_request /\
  exists cfg,
    resolve windows_request = Ok cfg /\
    isPlatform cfg Windows = isPlatform windows_request Windows /\
    (isPlatform windows_request Windows = true ->
     isPlatform cfg Xilinx = isPlatform windows_request Xilinx) /\
    (isPlatform windows_request Windows = false ->
     isPlatform cfg Xilinx = true) /\
    isPlatform cfg Windows && isPlatform cfg Xilinx
    = isPlatform windows_request Windows && isPlatform windows_request Xilinx
    /\ isPlatform cfg Windows || isPlatform cfg Xilinx = true.
Proof.
  split; [reflexivity|].
  apply (resolve_windows_or_xilinx windows_request). reflexivity.
Defined.

(** C9 fails as stated: with [WINDOWS_PLATFORM] and [XILINX_PLATFORM] both
    requested, both are true in the result. *)
Lemma windows_xilinx_request_both :
  ~ (forall cfg,
       resolve windows_xilinx_request = Ok cfg ->
       isPlatform cfg Windows && isPlatform cfg Xilinx = false).
Proof.
  intros H.
  assert (Hfirst : first_inclusion windows_xilinx_request) by reflexivity.
  destruct (resolve_total windows_xilinx_request) as [cfg Hres].
  specialize (H cfg Hres).
  rewrite !(resolve_isPlatform _ _ _ Hfirst Hres) in H.
  vm_compute in H. discriminate H.
Qed.

(** C10.  [HAVE_SPLIT_GAIN_TABLE] and [HAVE_TDD_SYNTH_TABLE] are hard-wired:
    whatever the option set requests for them, the header defines both as
    0, and both read as disabled. *)
Theorem resolve_tables_hard_wired requested :
  first_inclusion requested ->
  exists cfg,
    resolve requested = Ok cfg /\
    cfg !! feature_macro SplitGainTable = Some (IntLit 0) /\
    cfg !! feature_macro TddSynthTable = Some (IntLit 0) /\
    isFeatureEnabled cfg SplitGainTable = false /\
    isFeatureEnabled cfg TddSynthTable = false.
Proof.
  intros Hfirst. destruct (resolve_total requested) as [cfg Hres].
  exists cfg. split; [exact Hres|].
  destruct (resolve_tables _ _ Hfirst Hres) as [Hsplit Htdd].
  rewrite !(resolve_isFeatureEnabled _ _ _ Hfirst Hres).
  simpl. auto.
Qed.

Lemma resolve_tables_hard_wired_witness :
  first_inclusion tables_request /\
  exists cfg,
    resolve tables_request = Ok cfg /\
    cfg !! feature_macro SplitGainTable = Some (IntLit 0) /\
    cfg !! feature_macro TddSynthTable = Some (IntLit 0) /\
    isFeatureEnabled cfg SplitGainTable = false /\
    isFeatureEnabled cfg TddSynthTable = false.
Proof.
  split; [reflexivity|].
  apply (resolve_tables_hard_wired tables_request). reflexivity.
Defined.

(** ** The header as a whole *)

(** Predefining one more macro that a group neither tests nor writes
    commutes with preprocessing the group. *)
Lemma exec_group_insert ds :
  forall env env' name body,
    ~ In name (flat_map tested ds) -> ~ In name (flat_map written ds) ->
    exec_group ds env = Ok env' ->
    exec_group ds (<[name := body]> env) = Ok (<[name := body]> env').
Proof.
  revert ds.
  apply (group_ind
           (fun d => forall env env' name body,
                ~ In name (tested d) -> ~ In name (written d) ->
                exec d env = Ok env' ->
                exec d (<[name := body]> env) = Ok (<[name := body]> env'))
           (fun ds => forall env env' name body,
                ~ In name (flat_map tested ds) ->
                ~ In name (flat_map written ds) ->
                exec_group ds env = Ok env' ->
                exec_group ds (<[name := body]> env)
                = Ok (<[name := body]> env'))).
  - intros n b env env' name body _ Hw [= <-]. simpl.
    rewrite insert_insert_ne; [reflexivity|].
    intros ->. apply Hw. left. reflexivity.
  - intros n env env' name body _ Hw [= <-]. simpl.
    rewrite delete_insert_ne; [reflexivity|].
    intros ->. apply Hw. left. reflexivity.
  - intros n group IH env env' name body Ht Hw Hex.
    rewrite exec_Ifndef in *. rewrite defined_insert.
    destruct (decide (name = n)) as [->|_]; [destruct Ht; left; reflexivity|].
    destruct (defined env n).
    + injection Hex as <-. reflexivity.
    + apply IH; [intros Hin; apply Ht; right; exact Hin | exact Hw | exact Hex].
  - intros msg env env' name body _ _ Hex. discriminate Hex.
  - intros env env' name body _ _ [= <-]. reflexivity.
  - intros d ds IHd IHds env env' name body Ht Hw Hex.
    simpl in Ht, Hw. rewrite in_app_iff in Ht, Hw.
    rewrite exec_group_cons in *.
    destruct (exec d env) as [env1|msg] eqn:Hd1; [|discriminate Hex].
    rewrite (IHd env env1 name body); [|tauto|tauto|exact Hd1].
    apply IHds; [tauto | tauto | exact Hex].
Qed.

(** So does withdrawing such a macro. *)
Lemma exec_group_delete ds :
  forall env env' name,
    ~ In name (flat_map tested ds) -> ~ In name (flat_map written ds) ->
    exec_group ds env = Ok env' ->
    exec_group ds (delete name env) = Ok (delete name env').
Proof.
  revert ds.
  apply (group_ind
           (fun d => forall env env' name,
                ~ In name (tested d) -> ~ In name (written d) ->
                exec d env = Ok env' ->
                exec d (delete name env) = Ok (delete name env'))
           (fun ds => forall env env' name,
                ~ In name (flat_map tested ds) ->
                ~ In name (flat_map written ds) ->
                exec_group ds env = Ok env' ->
                exec_group ds (delete name env) = Ok (delete name env'))).
  - intros n b env env' name _ Hw [= <-]. simpl.
    rewrite delete_insert_ne; [reflexivity|].
    intros ->. apply Hw. left. reflexivity.
  - intros n env env' name _ Hw [= <-]. simpl.
    rewrite delete_delete. reflexivity.
  - intros n group IH env env' name Ht Hw Hex.
    rewrite exec_Ifndef in *.
    assert (Hsame : defined (delete name env) n = defined env n).
    { unfold defined. rewrite lookup_delete_ne; [reflexivity|].
      intros ->. apply Ht. left. reflexivity. }
    rewrite Hsame. destruct (defined env n).
    + injection Hex as <-. reflexivity.
    + apply IH; [intros Hin; apply Ht; right; exact Hin | exact Hw | exact Hex].
  - intros msg env env' name _ _ Hex. discriminate Hex.
  - intros env env' name _ _ [= <-]. reflexivity.
  - intros d ds IHd IHds env env' name Ht Hw Hex.
    simpl in Ht, Hw. rewrite in_app_iff in Ht, Hw.
    rewrite exec_group_cons in *.
    destruct (exec d env) as [env1|msg] eqn:Hd1; [|discriminate Hex].
    rewrite (IHd env env1 name); [|tauto|tauto|exact Hd1].
    apply IHds; [tauto | tauto | exact Hex].
Qed.

(** ** The header and its option set *)

Lemma app_config_h_tested :
  flat_map tested app_config_h = [CONFIG_H_; "WINDOWS_PLATFORM"; "IIO_SUPPORT"].
Proof. reflexivity. Qed.

Lemma default_build_names :
  map fst default_build = flat_map written app_config_h.
Proof. reflexivity. Qed.

Lemma default_build_defined name :
  defined (predefine default_build) name = true <->
  In name (flat_map written app_config_h).
Proof.
  unfold defined, predefine. rewrite <- default_build_names, <- list_elem_of_In.
  destruct (list_to_map default_build !! name) as [b|] eqn:Hl.
  - split; [intros _ | reflexivity].
    apply dec_stable. intros Hnot.
    apply (not_elem_of_list_to_map_1 (M := gmap string)) in Hnot. congruence.
  - split; [discriminate|]. intros Hin.
    apply (not_elem_of_list_to_map_2 (M := gmap string)) in Hl.
    contradiction.
Qed.

(** What the header defines, laid over what was predefined. *)
Lemma resolve_union requested cfg :
  first_inclusion requested -> resolve requested = Ok cfg ->
  let d1 := predefine default_build in
  let d2 := if defined requested "WINDOWS_PLATFORM"
            then delete "XILINX_PLATFORM" d1 else d1 in
  let d3 := if defined requested "IIO_SUPPORT"
            then delete "HAVE_VERBOSE_MESSAGES" d2 else d2 in
  cfg = d3 ∪ requested.
Proof.
  intros Hfirst Hres. cbv zeta. rewrite (resolve_first _ _ Hfirst Hres).
  apply map_eq. intros name. rewrite lookup_union.
  assert (Hcase : In name (flat_map written app_config_h) \/
                  ~ In name (flat_map written app_config_h)).
  { destruct (in_dec string_dec name (flat_map written app_config_h)); tauto. }
  unfold predefine, default_build. cbn [list_to_map foldr fst snd].
  destruct Hcase as [Hin | Hout].
  - rewrite app_config_h_written in Hin. simpl in Hin.
    destruct (defined requested "WINDOWS_PLATFORM");
      destruct (defined requested "IIO_SUPPORT");
      repeat (destruct Hin as [<- | Hin]); try contradiction;
      through_tables; destruct (requested !! _); reflexivity.
  - rewrite app_config_h_written in Hout. simpl in Hout.
    repeat match goal with
           | H : ~ (_ \/ _) |- _ => apply Decidable.not_or in H; destruct H
           end.
    destruct (defined requested "WINDOWS_PLATFORM");
      destruct (defined requested "IIO_SUPPORT");
      repeat first
        [ rewrite lookup_insert_ne by assumption
        | rewrite lookup_delete_ne by assumption
        | rewrite lookup_empty ];
      destruct (requested !! name); reflexivity.
Qed.

Lemma first_inclusion_insert requested name body :
  name <> CONFIG_H_ -> first_inclusion requested ->
  first_inclusion (<[name := body]> requested).
Proof.
  intros Hne Hfirst. unfold first_inclusion.
  rewrite lookup_insert_ne; [exact Hfirst | exact Hne].
Qed.

Lemma first_inclusion_defined requested :
  first_inclusion requested <-> defined requested CONFIG_H_ = false.
Proof.
  unfold first_inclusion, defined.
  destruct (requested !! CONFIG_H_); split; congruence.
Qed.

Lemma defined_insert_ne env name body name' :
  name <> name' -> defined (<[name := body]> env) name' = defined env name'.
Proof.
  intros Hne. rewrite defined_insert.
  destruct (decide (name = name')); [contradiction | reflexivity].
Qed.

(** X1.  The header's footprint.  For every option set the header
    succeeds, every macro that was predefined is still defined afterwards
    (there is no [#undef]), and every macro other than the nine the header
    has a [#define] for keeps exactly the definition, or the absence of
    one, it had before. *)
Theorem resolve_footprint requested :
  exists cfg,
    resolve requested = Ok cfg /\
    (forall name, defined requested name = true -> defined cfg name = true) /\
    (forall name,
        ~ In name [CONFIG_H_; "HAVE_SPLIT_GAIN_TABLE"; "HAVE_TDD_SYNTH_TABLE";
                   "AD9361_DEVICE"; "AD9364_DEVICE"; "AD9363A_DEVICE";
                   "XILINX_PLATFORM"; "ADC_DMA_EXAMPLE";
                   "HAVE_VERBOSE_MESSAGES"] ->
        cfg !! name = requested !! name).
Proof.
  destruct (resolve_total requested) as [cfg Hres]. exists cfg.
  split; [exact Hres|]. split.
  - intros name. apply (resolve_keeps_defined _ _ _ Hres).
  - intros name Hout. apply (resolve_frame _ _ _ Hres).
    rewrite app_config_h_written. exact Hout.
Qed.

(** X2.  At its first inclusion the header lays its own definitions over
    the predefined ones, and its own win: the result is the table of the
    default build, without [XILINX_PLATFORM] when [WINDOWS_PLATFORM] is
    predefined and without [HAVE_VERBOSE_MESSAGES] when [IIO_SUPPORT] is,
    united (left-biased) with the predefined table. *)
Theorem resolve_overlay requested :
  first_inclusion requested ->
  exists cfg,
    resolve requested = Ok cfg /\
    let d1 := predefine default_build in
    let d2 := if defined requested "WINDOWS_PLATFORM"
              then delete "XILINX_PLATFORM" d1 else d1 in
    let d3 := if defined requested "IIO_SUPPORT"
              then delete "HAVE_VERBOSE_MESSAGES" d2 else d2 in
    cfg = d3 ∪ requested.
Proof.
  intros Hfirst. destruct (resolve_total requested) as [cfg Hres].
  exists cfg. split; [exact Hres|]. apply resolve_union; assumption.
Qed.

Lemma resolve_overlay_witness :
  first_inclusion windows_xilinx_request /\
  exists cfg,
    resolve windows_xilinx_request = Ok cfg /\
    let d1 := predefine default_build in
    let d2 := if defined windows_xilinx_request "WINDOWS_PLATFORM"
              then delete "XILINX_PLATFORM" d1 else d1 in
    let d3 := if defined windows_xilinx_request "IIO_SUPPORT"
              then delete "HAVE_VERBOSE_MESSAGES" d2 else d2 in
    cfg = d3 ∪ windows_xilinx_request.
Proof.
  split; [reflexivity|].
  apply (resolve_overlay windows_xilinx_request). reflexivity.
Defined.

(** X3.  A macro the header neither tests ([CONFIG_H_],
    [WINDOWS_PLATFORM], [IIO_SUPPORT]) nor defines is independent of it:
    predefining it, with any replacement, or withdrawing it changes the
    result by exactly that macro. *)
Theorem resolve_unrelated_macro requested name body :
  ~ In name [CONFIG_H_; "WINDOWS_PLATFORM"; "IIO_SUPPORT";
             "HAVE_SPLIT_GAIN_TABLE"; "HAVE_TDD_SYNTH_TABLE";
             "AD9361_DEVICE"; "AD9364_DEVICE"; "AD9363A_DEVICE";
             "XILINX_PLATFORM"; "ADC_DMA_EXAMPLE"; "HAVE_VERBOSE_MESSAGES"] ->
  exists cfg,
    resolve requested = Ok cfg /\
    resolve (<[name := body]> requested) = Ok (<[name := body]> cfg) /\
    resolve (delete name requested) = Ok (delete name cfg).
Proof.
  intros Hout. destruct (resolve_total requested) as [cfg Hres].
  assert (Ht : ~ In name (flat_map tested app_config_h)).
  { rewrite app_config_h_tested. simpl in *. tauto. }
  assert (Hw : ~ In name (flat_map written app_config_h)).
  { rewrite app_config_h_written. simpl in *. tauto. }
  exists cfg. split; [exact Hres|]. split.
  - apply exec_group_insert; assumption.
  - apply exec_group_delete; assumption.
Qed.

Lemma resolve_unrelated_macro_witness :
  ~ In "LINUX_PLATFORM"
      [CONFIG_H_; "WINDOWS_PLATFORM"; "IIO_SUPPORT";
       "HAVE_SPLIT_GAIN_TABLE"; "HAVE_TDD_SYNTH_TABLE";
       "AD9361_DEVICE"; "AD9364_DEVICE"; "AD9363A_DEVICE";
       "XILINX_PLATFORM"; "ADC_DMA_EXAMPLE"; "HAVE_VERBOSE_MESSAGES"] /\
  exists cfg,
    resolve windows_request = Ok cfg /\
    resolve (<["LINUX_PLATFORM" := Empty]> windows_request)
    = Ok (<["LINUX_PLATFORM" := Empty]> cfg) /\
    resolve (delete "LINUX_PLATFORM" windows_request)
    = Ok (delete "LINUX_PLATFORM" cfg).
Proof.
  assert (Hout : ~ In "LINUX_PLATFORM"
      [CONFIG_H_; "WINDOWS_PLATFORM"; "IIO_SUPPORT";
       "HAVE_SPLIT_GAIN_TABLE"; "HAVE_TDD_SYNTH_TABLE";
       "AD9361_DEVICE"; "AD9364_DEVICE"; "AD9363A_DEVICE";
       "XILINX_PLATFORM"; "ADC_DMA_EXAMPLE"; "HAVE_VERBOSE_MESSAGES"]).
  { unfold CONFIG_H_. simpl. intuition discriminate. }
  split; [exact Hout|].
  apply (resolve_unrelated_macro windows_request "LINUX_PLATFORM" Empty Hout).
Defined.

(** The header's own part of the result at a macro it is going to define. *)
Lemma header_part_defines requested name :
  In name ["HAVE_SPLIT_GAIN_TABLE"; "HAVE_TDD_SYNTH_TABLE"; "AD9361_DEVICE";
           "AD9364_DEVICE"; "AD9363A_DEVICE"; "ADC_DMA_EXAMPLE"]
  \/ name = "XILINX_PLATFORM" /\ defined requested "WINDOWS_PLATFORM" = false
  \/ name = "HAVE_VERBOSE_MESSAGES" /\ defined requested "IIO_SUPPORT" = false ->
  let d1 := predefine default_build in
  let d2 := if defined requested "WINDOWS_PLATFORM"
            then delete "XILINX_PLATFORM" d1 else d1 in
  let d3 := if defined requested "IIO_SUPPORT"
            then delete "HAVE_VERBOSE_MESSAGES" d2 else d2 in
  is_Some (d3 !! name).
Proof.
  cbv zeta. unfold predefine, default_build. cbn [list_to_map foldr fst snd].
  intros [Hin | [[-> ->] | [-> ->]]].
  - simpl in Hin.
    destruct (defined requested "WINDOWS_PLATFORM");
      destruct (defined requested "IIO_SUPPORT");
      repeat (destruct Hin as [<- | Hin]); try contradiction;
      through_tables; eauto.
  - destruct (defined requested "IIO_SUPPORT"); through_tables; eauto.
  - destruct (defined requested "WINDOWS_PLATFORM"); through_tables; eauto.
Qed.

(** X4.  What is predefined for a macro the header is going to define is
    ignored.  Two option sets that differ only at one of the six macros of
    lines 43-48 and 61, at [XILINX_PLATFORM] without [WINDOWS_PLATFORM], or
    at [HAVE_VERBOSE_MESSAGES] without [IIO_SUPPORT], resolve to the same
    configuration. *)
Theorem resolve_ignores_predefined (requested requested' : macro_env) name :
  first_inclusion requested ->
  In name ["HAVE_SPLIT_GAIN_TABLE"; "HAVE_TDD_SYNTH_TABLE"; "AD9361_DEVICE";
           "AD9364_DEVICE"; "AD9363A_DEVICE"; "ADC_DMA_EXAMPLE"]
  \/ name = "XILINX_PLATFORM" /\ defined requested "WINDOWS_PLATFORM" = false
  \/ name = "HAVE_VERBOSE_MESSAGES" /\ defined requested "IIO_SUPPORT" = false ->
  (forall k, k <> name -> requested' !! k = requested !! k) ->
  resolve requested' = resolve requested.
Proof.
  intros Hfirst Hname Hsame.
  assert (Hne : CONFIG_H_ <> name /\ "WINDOWS_PLATFORM" <> name
                /\ "IIO_SUPPORT" <> name).
  { unfold CONFIG_H_. simpl in Hname.
    repeat split; intros <-; intuition discriminate. }
  destruct Hne as (Hguard & Hwin & Hiio).
  assert (Hfirst' : first_inclusion requested').
  { unfold first_inclusion. rewrite (Hsame _ Hguard). exact Hfirst. }
  pose proof (header_part_defines requested name Hname) as Hsome.
  destruct (resolve_total requested) as [cfg Hres].
  destruct (resolve_total requested') as [cfg' Hres'].
  rewrite Hres, Hres'. f_equal.
  rewrite (resolve_union _ _ Hfirst Hres), (resolve_union _ _ Hfirst' Hres').
  cbv zeta in *. unfold defined in *.
  rewrite (Hsame _ Hwin), (Hsame _ Hiio).
  apply map_eq. intros k. rewrite !lookup_union.
  destruct (decide (k = name)) as [->|Hk]; [|rewrite (Hsame _ Hk); reflexivity].
  destruct Hsome as [b ->].
  destruct (requested !! name), (requested' !! name); reflexivity.
Qed.

Lemma resolve_ignores_predefined_witness :
  first_inclusion linux_request /\
  (In "AD9364_DEVICE"
      ["HAVE_SPLIT_GAIN_TABLE"; "HAVE_TDD_SYNTH_TABLE"; "AD9361_DEVICE";
       "AD9364_DEVICE"; "AD9363A_DEVICE"; "ADC_DMA_EXAMPLE"]
   \/ "AD9364_DEVICE" = "XILINX_PLATFORM"
      /\ defined linux_request "WINDOWS_PLATFORM" = false
   \/ "AD9364_DEVICE" = "HAVE_VERBOSE_MESSAGES"
      /\ defined linux_request "IIO_SUPPORT" = false) /\
  (forall k, k <> "AD9364_DEVICE" ->
             <["AD9364_DEVICE" := IntLit 1]> linux_request !! k
             = linux_request !! k) /\
  resolve (<["AD9364_DEVICE" := IntLit 1]> linux_request)
  = resolve linux_request.
Proof.
  assert (Hin : In "AD9364_DEVICE"
      ["HAVE_SPLIT_GAIN_TABLE"; "HAVE_TDD_SYNTH_TABLE"; "AD9361_DEVICE";
       "AD9364_DEVICE"; "AD9363A_DEVICE"; "ADC_DMA_EXAMPLE"]).
  { simpl. tauto. }
  assert (Hsame : forall k, k <> "AD9364_DEVICE" ->
             <["AD9364_DEVICE" := IntLit 1]> linux_request !! k
             = linux_request !! k).
  { intros k Hk. apply lookup_insert_ne. congruence. }
  split; [reflexivity|]. split; [left; exact Hin|]. split; [exact Hsame|].
  apply (resolve_ignores_predefined linux_request
           (<["AD9364_DEVICE" := IntLit 1]> linux_request) "AD9364_DEVICE"
           eq_refl (or_introl Hin) Hsame).
Defined.

(** X5.  At its first inclusion the header yields exactly its default
    build if and only if nothing is predefined but macros of the default
    build itself (with whatever replacement). *)
Theorem resolve_default_iff requested :
  first_inclusion requested ->
  resolve requested = Ok (predefine default_build) <->
  (forall name, defined requested name = true ->
                In name (map fst default_build)).
Proof.
  intros Hfirst. rewrite default_build_names. split.
  - intros Hres name Hdef. apply default_build_defined.
    apply (resolve_keeps_defined _ _ _ Hres), Hdef.
  - intros Hdom.
    assert (Hwin : defined requested "WINDOWS_PLATFORM" = false).
    { destruct (defined requested "WINDOWS_PLATFORM") eqn:Hd; [|reflexivity].
      apply Hdom in Hd. rewrite app_config_h_written in Hd.
      unfold CONFIG_H_ in Hd. simpl in Hd. intuition discriminate. }
    assert (Hiio : defined requested "IIO_SUPPORT" = false).
    { destruct (defined requested "IIO_SUPPORT") eqn:Hd; [|reflexivity].
      apply Hdom in Hd. rewrite app_config_h_written in Hd.
      unfold CONFIG_H_ in Hd. simpl in Hd. intuition discriminate. }
    destruct (resolve_total requested) as [cfg Hres]. rewrite Hres. f_equal.
    rewrite (resolve_union _ _ Hfirst Hres). cbv zeta. rewrite Hwin, Hiio.
    apply map_eq. intros k. rewrite lookup_union.
    destruct (predefine default_build !! k) as [b|] eqn:Hk.
    + destruct (requested !! k); reflexivity.
    + destruct (requested !! k) as [b|] eqn:Hr; [|reflexivity].
      assert (Hd : defined requested k = true) by (unfold defined; rewrite Hr; reflexivity).
      apply Hdom, default_build_defined in Hd. unfold defined in Hd.
      rewrite Hk in Hd. discriminate Hd.
Qed.

Lemma resolve_default_iff_witness :
  first_inclusion example_request /\
  (resolve example_request = Ok (predefine default_build) <->
   (forall name, defined example_request name = true ->
                 In name (map fst default_build))).
Proof.
  split; [reflexivity|].
  apply (resolve_default_iff example_request). reflexivity.
Defined.

(** X6.  The two switches act locally.  Predefining [IIO_SUPPORT] changes
    nothing in the result but [IIO_SUPPORT] itself and
    [HAVE_VERBOSE_MESSAGES], which is then left as predefined; predefining
    [WINDOWS_PLATFORM] changes nothing but [WINDOWS_PLATFORM] itself and
    [XILINX_PLATFORM], which is then left as predefined.  This holds for
    every option set, also under a defined include guard. *)
Theorem resolve_switches_local requested body :
  exists cfg cfg_iio cfg_win,
    resolve requested = Ok cfg /\
    resolve (<["IIO_SUPPORT" := body]> requested) = Ok cfg_iio /\
    resolve (<["WINDOWS_PLATFORM" := body]> requested) = Ok cfg_win /\
    (forall name,
        name <> "IIO_SUPPORT" -> name <> "HAVE_VERBOSE_MESSAGES" ->
        cfg_iio !! name = cfg !! name) /\
    cfg_iio !! "HAVE_VERBOSE_MESSAGES" = requested !! "HAVE_VERBOSE_MESSAGES" /\
    (forall name,
        name <> "WINDOWS_PLATFORM" -> name <> "XILINX_PLATFORM" ->
        cfg_win !! name = cfg !! name) /\
    cfg_win !! "XILINX_PLATFORM" = requested !! "XILINX_PLATFORM".
Proof.
  destruct (resolve_total requested) as [cfg Hres].
  destruct (resolve_total (<["IIO_SUPPORT" := body]> requested))
    as [cfg_iio Hiio].
  destruct (resolve_total (<["WINDOWS_PLATFORM" := body]> requested))
    as [cfg_win Hwin].
  exists cfg, cfg_iio, cfg_win.
  split; [exact Hres|]. split; [exact Hiio|]. split; [exact Hwin|].
  destruct (defined requested CONFIG_H_) eqn:Hg.
  - (* the guard is defined: nothing is read *)
    rewrite (resolve_guarded _ Hg) in Hres. injection Hres as <-.
    rewrite resolve_guarded in Hiio, Hwin
      by (rewrite defined_insert_ne; [exact Hg | discriminate]).
    injection Hiio as <-. injection Hwin as <-.
    repeat split; intros;
      rewrite lookup_insert_ne by congruence; reflexivity.
  - apply first_inclusion_defined in Hg.
    assert (Hg_iio : first_inclusion (<["IIO_SUPPORT" := body]> requested))
      by (apply first_inclusion_insert; [discriminate | exact Hg]).
    assert (Hg_win : first_inclusion (<["WINDOWS_PLATFORM" := body]> requested))
      by (apply first_inclusion_insert; [discriminate | exact Hg]).
    rewrite (resolve_union _ _ Hg Hres), (resolve_union _ _ Hg_iio Hiio),
      (resolve_union _ _ Hg_win Hwin).
    cbv zeta.
    assert (Hd : forall env name, defined (<[name := body]> env) name = true).
    { intros env name. unfold defined. rewrite lookup_insert_eq. reflexivity. }
    rewrite !Hd, !defined_insert_ne by discriminate.
    repeat split.
    + intros name Hn1 Hn2. rewrite !lookup_union.
      rewrite (lookup_insert_ne requested) by congruence.
      rewrite lookup_delete_ne by congruence.
      destruct (defined requested "IIO_SUPPORT");
        [rewrite lookup_delete_ne by congruence|]; reflexivity.
    + rewrite lookup_union, lookup_delete_eq, lookup_insert_ne by discriminate.
      destruct (requested !! _); reflexivity.
    + intros name Hn1 Hn2. rewrite !lookup_union.
      rewrite (lookup_insert_ne requested) by congruence.
      destruct (defined requested "IIO_SUPPORT"),
        (defined requested "WINDOWS_PLATFORM");
        rewrite ?lookup_delete; repeat case_decide; congruence.
    + rewrite lookup_union, lookup_insert_ne by discriminate.
      destruct (defined requested "IIO_SUPPORT");
        [rewrite lookup_delete_ne by discriminate|];
        rewrite lookup_delete_eq; destruct (requested !! _); reflexivity.
Qed.
